(** * ApigwHttpApiLambdaDynamodbPythonCdkStack: a shallow embedding

    The stack constructor of
    [stacks/apigw_http_api_lambda_dynamodb_python_cdk_stack.py] builds a graph
    of resource descriptors.  Each construct it instantiates is a record below,
    each library call it makes ([add_flow_log], [add_to_policy],
    [auto_scale_write_capacity], [scale_on_utilization], [grant_write_data],
    [add_environment], the [metric_*] accessors) is a function on those
    records, written after the behaviour of the construct library.  The
    library calls that raise in Python return [inl msg] in the [Result]
    monad.  The constructor itself is [stack_init], a state-and-error
    computation over the construct tree of the stack: every construct it
    creates is added to the tree at once and later calls update it in place,
    and an exception stops the computation, leaving the constructs created so
    far in the tree.  Its run from the empty tree is [run_init]. *)

From Stdlib Require Import String List ZArith QArith Bool Lia Permutation.
Import ListNotations.
Open Scope Z_scope.
Open Scope string_scope.

(** ** Values of the descriptor graph

    A property is either a literal, a reference to an attribute of another
    logical resource (a token such as [table_name] or [attr_arn]), or the
    [AWS::Region] pseudo parameter ([self.region]). *)
Inductive Value : Type :=
| VStr (s : string)
| VRef (logical_id : string) (attr : string)
| VRegion.

Definition value_eq_dec (a b : Value) : {a = b} + {a <> b}.
Proof. decide equality; apply string_dec. Defined.

Definition value_eqb (a b : Value) : bool :=
  if value_eq_dec a b then true else false.

(** Dimension maps / environments as insertion-ordered dictionaries. *)
Fixpoint dict_get (d : list (string * Value)) (k : string) : option Value :=
  match d with
  | [] => None
  | (k', v) :: r => if String.eqb k k' then Some v else dict_get r k
  end.

(** [d[k] = v] on a dictionary: an existing key keeps its value's slot, a new
    key is added once.  The list keeps insertion order, which is not the order
    in which a JS object lists array-index keys such as ["1"]; no property
    below depends on that order. *)
Fixpoint dict_set (d : list (string * Value)) (k : string) (v : Value)
  : list (string * Value) :=
  match d with
  | [] => [(k, v)]
  | (k', v') :: r => if String.eqb k k' then (k, v) :: r else (k', v') :: dict_set r k v
  end.

(** ** The error monad of the constructor *)
Definition Result (A : Type) : Type := (string + A)%type.

Definition ret {A} (a : A) : Result A := inr a.

Definition bind {A B} (m : Result A) (k : A -> Result B) : Result B :=
  match m with
  | inl e => inl e
  | inr a => k a
  end.

Notation "'let*' x ':=' m 'in' k" := (bind m (fun x => k))
  (at level 200, x name, m at level 100, k at level 200).

Definition raise {A} (msg : string) : Result A := inl msg.

(** ** Enumerations of the construct library *)
Inductive SubnetType := PRIVATE_ISOLATED | PRIVATE_WITH_EGRESS | PUBLIC.

(** Only a [PUBLIC] subnet gets a route to the internet gateway. *)
Definition routes_to_internet_gateway (t : SubnetType) : bool :=
  match t with PUBLIC => true | _ => false end.

Inductive RetentionDays :=
| ONE_DAY | ONE_WEEK | ONE_MONTH | SIX_MONTHS | ONE_YEAR | TWO_YEARS | INFINITE.

Inductive FlowLogTrafficType := ACCEPT | REJECT | ALL.

Inductive Principal := AnyPrincipal | ServicePrincipal (s : string) | ArnPrincipal (s : string).

Inductive AttributeType := STRING | NUMBER | BINARY.

Inductive BillingMode := PROVISIONED | PAY_PER_REQUEST.

Inductive StreamViewType := NEW_IMAGE | OLD_IMAGE | NEW_AND_OLD_IMAGES | KEYS_ONLY.

Inductive Tracing := ACTIVE | PASS_THROUGH | DISABLED.

(** ** ec2.Vpc and its flow logs *)
Record SubnetConfiguration := {
  sc_name : string;
  sc_subnet_type : SubnetType;
  sc_cidr_mask : Z
}.

Record FlowLog := {
  fl_id : string;
  fl_destination_log_group : string;   (** id of the destination LogGroup *)
  fl_traffic_type : FlowLogTrafficType
}.

Record Vpc := {
  vpc_id : string;
  vpc_cidr : string;
  vpc_subnet_configuration : list SubnetConfiguration;
  vpc_flow_logs : list FlowLog
}.

Definition add_flow_log (v : Vpc) (id dest : string) (tt : FlowLogTrafficType) : Vpc :=
  {| vpc_id := vpc_id v;
     vpc_cidr := vpc_cidr v;
     vpc_subnet_configuration := vpc_subnet_configuration v;
     vpc_flow_logs := vpc_flow_logs v ++
       [{| fl_id := id; fl_destination_log_group := dest; fl_traffic_type := tt |}] |}.

(** ** logs.LogGroup *)
Record LogGroup := {
  lg_id : string;
  lg_retention : RetentionDays
}.

(** ** iam.PolicyStatement and ec2.GatewayVpcEndpoint *)
Record PolicyStatement := {
  ps_principals : list Principal;
  ps_actions : list string;
  ps_resources : list string
}.

(** A gateway endpoint starts without a policy document (full access);
    [add_to_policy] appends a statement to it, and refuses a statement
    without a principal. *)
Record GatewayVpcEndpoint := {
  ep_id : string;
  ep_service : string;
  ep_vpc : string;
  ep_policy_statements : list PolicyStatement
}.

Definition add_to_policy (e : GatewayVpcEndpoint) (st : PolicyStatement)
  : Result GatewayVpcEndpoint :=
  match ps_principals st with
  | [] => inl "Statement must have a `Principal`."
  | _ => inr {| ep_id := ep_id e; ep_service := ep_service e; ep_vpc := ep_vpc e;
                ep_policy_statements := ep_policy_statements e ++ [st] |}
  end.

(** ** dynamodb.Table and its write-capacity autoscaling *)
Record Attribute := {
  attr_name : string;
  attr_type : AttributeType
}.

Record ScalableAttribute := {
  sa_min_capacity : Z;
  sa_max_capacity : Z;
  sa_target_utilization_percent : option Z
}.

Record Table := {
  tbl_id : string;
  tbl_partition_key : Attribute;
  tbl_billing_mode : BillingMode;
  tbl_read_capacity : Z;
  tbl_write_capacity : Z;
  tbl_point_in_time_recovery : bool;
  tbl_stream : StreamViewType;
  tbl_read_scaling : option ScalableAttribute;
  tbl_write_scaling : option ScalableAttribute
}.

(** [table.table_name]: the [Ref] of the table resource. *)
Definition table_name (t : Table) : Value := VRef (tbl_id t) "Ref".

Definition set_write_scaling (t : Table) (s : option ScalableAttribute) : Table :=
  {| tbl_id := tbl_id t;
     tbl_partition_key := tbl_partition_key t;
     tbl_billing_mode := tbl_billing_mode t;
     tbl_read_capacity := tbl_read_capacity t;
     tbl_write_capacity := tbl_write_capacity t;
     tbl_point_in_time_recovery := tbl_point_in_time_recovery t;
     tbl_stream := tbl_stream t;
     tbl_read_scaling := tbl_read_scaling t;
     tbl_write_scaling := s |}.

(** [Table.autoScaleWriteCapacity]: refuses a second attachment and a
    PAY_PER_REQUEST table; the scalable target refuses negative or crossed
    bounds. *)
Definition auto_scale_write_capacity (t : Table) (min_capacity max_capacity : Z)
  : Result Table :=
  match tbl_write_scaling t with
  | Some _ => raise "Write AutoScaling already enabled for this table"
  | None =>
    match tbl_billing_mode t with
    | PAY_PER_REQUEST =>
        raise "AutoScaling is not available for tables with PAY_PER_REQUEST billing mode"
    | PROVISIONED =>
        if (max_capacity <? 0)%Z then raise "maxCapacity cannot be negative"
        else if (min_capacity <? 0)%Z then raise "minCapacity cannot be negative"
        else if (max_capacity <? min_capacity)%Z then raise "minCapacity must be less than or equal to maxCapacity"
        else ret (set_write_scaling t
                   (Some {| sa_min_capacity := min_capacity;
                            sa_max_capacity := max_capacity;
                            sa_target_utilization_percent := None |}))
    end
  end.

(** [write_scaling.scale_on_utilization]: the target must lie in [10, 90];
    a second call adds a second policy with the construct id ["Tracking"],
    which the construct tree refuses. *)
Definition scale_on_utilization (t : Table) (target_utilization_percent : Z) : Result Table :=
  match tbl_write_scaling t with
  | None => raise "Write AutoScaling not enabled"
  | Some {| sa_target_utilization_percent := Some _ |} =>
      raise "There is already a Construct with name 'Tracking'"
  | Some sa =>
      if ((target_utilization_percent <? 10) || (90 <? target_utilization_percent))%Z
      then raise "targetUtilizationPercent for DynamoDB scaling must be between 10 and 90 percent"
      else ret (set_write_scaling t
                 (Some {| sa_min_capacity := sa_min_capacity sa;
                          sa_max_capacity := sa_max_capacity sa;
                          sa_target_utilization_percent := Some target_utilization_percent |}))
  end.

(** ** lambda.Function *)
Record Function := {
  fn_id : string;
  fn_function_name : string;
  fn_runtime : string;
  fn_code_asset : string;
  fn_handler : string;
  fn_vpc : option string;
  fn_vpc_subnets : option SubnetType;
  fn_memory_size : Z;
  fn_timeout_seconds : Z;
  fn_tracing : Tracing;
  fn_log_retention : option RetentionDays;
  fn_reserved_concurrent_executions : option Z;
  fn_environment : list (string * Value);
  fn_write_grants : list string        (** tables its role may write *)
}.

(** [function.function_name]: the [Ref] of the function resource. *)
Definition function_name (f : Function) : Value := VRef (fn_id f) "Ref".

Definition with_env_and_grants (f : Function) (env : list (string * Value))
  (grants : list string) : Function :=
  {| fn_id := fn_id f; fn_function_name := fn_function_name f;
     fn_runtime := fn_runtime f; fn_code_asset := fn_code_asset f;
     fn_handler := fn_handler f; fn_vpc := fn_vpc f;
     fn_vpc_subnets := fn_vpc_subnets f; fn_memory_size := fn_memory_size f;
     fn_timeout_seconds := fn_timeout_seconds f; fn_tracing := fn_tracing f;
     fn_log_retention := fn_log_retention f;
     fn_reserved_concurrent_executions := fn_reserved_concurrent_executions f;
     fn_environment := env; fn_write_grants := grants |}.

(** [table.grant_write_data(fn)] *)
Definition grant_write_data (t : Table) (f : Function) : Function :=
  with_env_and_grants f (fn_environment f) (fn_write_grants f ++ [tbl_id t]).

(** [fn.add_environment(key, value)]: [this.environment[key] = {value}] on a JS
    object.  Assigning to the key ["__proto__"] replaces the object's
    prototype and adds no own key, so no such variable is rendered. *)
Definition add_environment (f : Function) (k : string) (v : Value) : Function :=
  if String.eqb k "__proto__" then f
  else with_env_and_grants f (dict_set (fn_environment f) k v) (fn_write_grants f).

(** ** apigateway.LambdaRestApi *)
Record StageOptions := {
  so_stage_name : string;
  so_throttling_rate_limit : Z;
  so_throttling_burst_limit : Z;
  so_tracing_enabled : bool;
  so_access_log_destination : string;     (** id of the destination LogGroup *)
  so_access_log_fields : list string
}.

Record RestApi := {
  api_id : string;
  api_rest_api_name : string;     (** [restApiName], by default the construct id *)
  api_handler : string;           (** id of the proxied function *)
  api_deploy_options : StageOptions
}.

(** [api.rest_api_id]: the [Ref] of the RestApi resource. *)
Definition rest_api_id (a : RestApi) : Value := VRef (api_id a) "Ref".

(** [api.deployment_stage.stage_name]: the [Ref] of the stage resource
    [DeploymentStage.<stageName>] the RestApi creates. *)
Definition deployment_stage_name (a : RestApi) : Value :=
  VRef (api_id a ++ "/DeploymentStage." ++ so_stage_name (api_deploy_options a)) "Ref".

(** ** wafv2.CfnWebACL and CfnWebACLAssociation *)
Record WafRule := {
  rule_name : string;
  rule_priority : Z;
  rule_rate_limit : Z;
  rule_aggregate_key_type : string;
  rule_block : bool;
  rule_metric_name : string
}.

Record WebACL := {
  acl_id : string;
  acl_scope : string;
  acl_default_allow : bool;
  acl_metric_name : string;
  acl_rules : list WafRule
}.

Definition attr_arn (w : WebACL) : Value := VRef (acl_id w) "Arn".

(** [resource_arn] is an f-string over tokens: a join of its pieces. *)
Record WebACLAssociation := {
  assoc_id : string;
  assoc_resource_arn : list Value;
  assoc_web_acl_arn : Value
}.

(** ** cloudwatch.Metric and Alarm *)
Record Metric := {
  m_namespace : string;
  m_metric_name : string;
  m_dimensions : list (string * Value)
}.

Record Alarm := {
  al_id : string;
  al_metric : Metric;
  al_threshold : Z;
  al_evaluation_periods : Z;
  al_description : string
}.

(** [fn.metric(name)]: a per-function metric. *)
Definition lambda_metric (f : Function) (name : string) : Metric :=
  {| m_namespace := "AWS/Lambda"; m_metric_name := name;
     m_dimensions := [("FunctionName", function_name f)] |}.

Definition metric_errors (f : Function) : Metric := lambda_metric f "Errors".

(** Looking up a no-argument metric method on a [lambda.Function] object, as
    [fn.<name>()] does in Python: the instance has [metric_errors],
    [metric_duration], [metric_invocations] and [metric_throttles]; any other
    name raises [AttributeError] ([metric_all_concurrent_executions] is a
    static method of the class). *)
Definition function_metric_method (name : string) (f : Function) : Result Metric :=
  if String.eqb name "metric_errors" then ret (metric_errors f)
  else if String.eqb name "metric_duration" then ret (lambda_metric f "Duration")
  else if String.eqb name "metric_invocations" then ret (lambda_metric f "Invocations")
  else if String.eqb name "metric_throttles" then ret (lambda_metric f "Throttles")
  else raise ("AttributeError: 'Function' object has no attribute '" ++ name ++ "'").

Definition metric_server_error (a : RestApi) : Metric :=
  {| m_namespace := "AWS/ApiGateway"; m_metric_name := "5XXError";
     m_dimensions := [("ApiName", VStr (api_rest_api_name a))] |}.

Definition metric_client_error (a : RestApi) : Metric :=
  {| m_namespace := "AWS/ApiGateway"; m_metric_name := "4XXError";
     m_dimensions := [("ApiName", VStr (api_rest_api_name a))] |}.

(** [table.metric(name)]: a per-table metric. *)
Definition table_metric (t : Table) (name : string) : Metric :=
  {| m_namespace := "AWS/DynamoDB"; m_metric_name := name;
     m_dimensions := [("TableName", table_name t)] |}.

(** [table.metric_user_errors()]: [UserErrors] is an account-level metric of
    DynamoDB; the library overrides the dimensions with an empty map. *)
Definition metric_user_errors (t : Table) : Metric :=
  {| m_namespace := "AWS/DynamoDB"; m_metric_name := "UserErrors";
     m_dimensions := [] |}.

(** ** The construct tree of the stack *)
Record Graph := {
  g_vpcs : list Vpc;
  g_log_groups : list LogGroup;
  g_endpoints : list GatewayVpcEndpoint;
  g_tables : list Table;
  g_functions : list Function;
  g_apis : list RestApi;
  g_web_acls : list WebACL;
  g_associations : list WebACLAssociation;
  g_alarms : list Alarm
}.

Definition mk_graph vs lgs eps tbls fns apis acls assocs alarms : Graph :=
  {| g_vpcs := vs; g_log_groups := lgs; g_endpoints := eps; g_tables := tbls;
     g_functions := fns; g_apis := apis; g_web_acls := acls;
     g_associations := assocs; g_alarms := alarms |}.

Definition empty_graph : Graph := mk_graph [] [] [] [] [] [] [] [] [].

(** The constructs [__init__] creates as children of the stack. *)
Inductive Construct :=
| CVpc (v : Vpc)
| CLogGroup (l : LogGroup)
| CEndpoint (e : GatewayVpcEndpoint)
| CTable (t : Table)
| CFunction (f : Function)
| CRestApi (a : RestApi)
| CWebACL (w : WebACL)
| CAssociation (s : WebACLAssociation)
| CAlarm (a : Alarm).

Definition construct_id (c : Construct) : string :=
  match c with
  | CVpc v => vpc_id v | CLogGroup l => lg_id l | CEndpoint e => ep_id e
  | CTable t => tbl_id t | CFunction f => fn_id f | CRestApi a => api_id a
  | CWebACL w => acl_id w | CAssociation s => assoc_id s | CAlarm a => al_id a
  end.

(** Ids of the children of the stack. *)
Definition child_ids (g : Graph) : list string :=
  (map vpc_id (g_vpcs g) ++ map lg_id (g_log_groups g) ++ map ep_id (g_endpoints g)
   ++ map tbl_id (g_tables g) ++ map fn_id (g_functions g) ++ map api_id (g_apis g)
   ++ map acl_id (g_web_acls g) ++ map assoc_id (g_associations g)
   ++ map al_id (g_alarms g))%list.

Definition add_construct (g : Graph) (c : Construct) : Graph :=
  let (vs, lgs, eps, tbls, fns, apis, acls, assocs, alarms) := g in
  match c with
  | CVpc v => mk_graph (vs ++ [v]) lgs eps tbls fns apis acls assocs alarms
  | CLogGroup l => mk_graph vs (lgs ++ [l]) eps tbls fns apis acls assocs alarms
  | CEndpoint e => mk_graph vs lgs (eps ++ [e]) tbls fns apis acls assocs alarms
  | CTable t => mk_graph vs lgs eps (tbls ++ [t]) fns apis acls assocs alarms
  | CFunction f => mk_graph vs lgs eps tbls (fns ++ [f]) apis acls assocs alarms
  | CRestApi a => mk_graph vs lgs eps tbls fns (apis ++ [a]) acls assocs alarms
  | CWebACL w => mk_graph vs lgs eps tbls fns apis (acls ++ [w]) assocs alarms
  | CAssociation s => mk_graph vs lgs eps tbls fns apis acls (assocs ++ [s]) alarms
  | CAlarm a => mk_graph vs lgs eps tbls fns apis acls assocs (alarms ++ [a])
  end%list.

(** ** The state-and-error monad of [__init__]

    An exception keeps the tree built so far: the constructs already
    created stay children of the stack. *)
Definition Init (A : Type) : Type := Graph -> Graph * Result A.

Definition iret {A} (a : A) : Init A := fun g => (g, inr a).

Definition ibind {A B} (m : Init A) (k : A -> Init B) : Init B :=
  fun g => match m g with
           | (g', inl e) => (g', inl e)
           | (g', inr a) => k a g'
           end.

Notation "'let!' x ':=' m 'in' k" := (ibind m (fun x => k))
  (at level 200, x name, m at level 100, k at level 200).

(** Evaluating an expression that may raise. *)
Definition lift {A} (r : Result A) : Init A := fun g => (g, r).

(** [Kind(self, id, ...)]: a new child; a second child with the same id is
    refused by the construct tree. *)
Definition new (c : Construct) : Init unit :=
  fun g => if existsb (String.eqb (construct_id c)) (child_ids g)
           then (g, raise ("There is already a Construct with name '" ++ construct_id c ++ "'"))
           else (add_construct g c, inr tt).

(** A method call that updates the construct with the given id in place. *)
Definition update_in {A} (key : A -> string) (id : string) (f : A -> Result A) (l : list A)
  : Result (list A) :=
  match find (fun x => String.eqb (key x) id) l with
  | None => raise ("No construct with id '" ++ id ++ "'")
  | Some x => let* x' := f x in
              ret (map (fun y => if String.eqb (key y) id then x' else y) l)
  end.

Definition update_vpc (id : string) (f : Vpc -> Result Vpc) : Init unit :=
  fun g => match update_in vpc_id id f (g_vpcs g) with
           | inl e => (g, inl e)
           | inr l => (mk_graph l (g_log_groups g) (g_endpoints g) (g_tables g)
                         (g_functions g) (g_apis g) (g_web_acls g)
                         (g_associations g) (g_alarms g), inr tt)
           end.

Definition update_endpoint (id : string) (f : GatewayVpcEndpoint -> Result GatewayVpcEndpoint)
  : Init unit :=
  fun g => match update_in ep_id id f (g_endpoints g) with
           | inl e => (g, inl e)
           | inr l => (mk_graph (g_vpcs g) (g_log_groups g) l (g_tables g)
                         (g_functions g) (g_apis g) (g_web_acls g)
                         (g_associations g) (g_alarms g), inr tt)
           end.

Definition update_table (id : string) (f : Table -> Result Table) : Init unit :=
  fun g => match update_in tbl_id id f (g_tables g) with
           | inl e => (g, inl e)
           | inr l => (mk_graph (g_vpcs g) (g_log_groups g) (g_endpoints g) l
                         (g_functions g) (g_apis g) (g_web_acls g)
                         (g_associations g) (g_alarms g), inr tt)
           end.

Definition update_function (id : string) (f : Function -> Result Function) : Init unit :=
  fun g => match update_in fn_id id f (g_functions g) with
           | inl e => (g, inl e)
           | inr l => (mk_graph (g_vpcs g) (g_log_groups g) (g_endpoints g) (g_tables g)
                         l (g_apis g) (g_web_acls g)
                         (g_associations g) (g_alarms g), inr tt)
           end.

Definition TABLE_NAME : string := "demo_table".

Definition alarm (id : string) (m : Metric) (threshold periods : Z) (descr : string) : Alarm :=
  {| al_id := id; al_metric := m; al_threshold := threshold;
     al_evaluation_periods := periods; al_description := descr |}.

(** The [dynamodb_.Table(self, TABLE_NAME, ...)] descriptor as constructed,
    before autoscaling is attached. *)
Definition demo_table0 : Table :=
  {| tbl_id := TABLE_NAME;
     tbl_partition_key := {| attr_name := "id"; attr_type := STRING |};
     tbl_billing_mode := PROVISIONED;
     tbl_read_capacity := 5;
     tbl_write_capacity := 100;
     tbl_point_in_time_recovery := true;
     tbl_stream := NEW_AND_OLD_IMAGES;
     tbl_read_scaling := None;
     tbl_write_scaling := None |}.

(** [ApigwHttpApiLambdaDynamodbPythonCdkStack.__init__], statement by
    statement; a Python variable holds the construct as created, and the
    methods called on it later update the construct in the tree. *)
Definition stack_init : Init unit :=
  (* VPC *)
  let vpc := {| vpc_id := "Ingress";
                vpc_cidr := "10.1.0.0/16";
                vpc_subnet_configuration :=
                  [{| sc_name := "Private-Subnet";
                      sc_subnet_type := PRIVATE_ISOLATED;
                      sc_cidr_mask := 24 |}];
                vpc_flow_logs := [] |} in
  let! _ := new (CVpc vpc) in
  (* Enable VPC Flow Logs *)
  let vpc_flow_log_group := {| lg_id := "VpcFlowLogs"; lg_retention := ONE_YEAR |} in
  let! _ := new (CLogGroup vpc_flow_log_group) in
  let! _ := update_vpc (vpc_id vpc)
              (fun v => ret (add_flow_log v "FlowLog" (lg_id vpc_flow_log_group) ALL)) in
  (* Create VPC endpoint *)
  let dynamo_db_endpoint := {| ep_id := "DynamoDBVpce"; ep_service := "dynamodb";
                               ep_vpc := vpc_id vpc; ep_policy_statements := [] |} in
  let! _ := new (CEndpoint dynamo_db_endpoint) in
  let! _ := update_endpoint (ep_id dynamo_db_endpoint)
              (fun e => add_to_policy e
                 {| ps_principals := [AnyPrincipal];
                    ps_actions := ["dynamodb:DescribeStream"; "dynamodb:DescribeTable";
                                   "dynamodb:Get*"; "dynamodb:Query"; "dynamodb:Scan";
                                   "dynamodb:CreateTable"; "dynamodb:Delete*";
                                   "dynamodb:Update*"; "dynamodb:PutItem"];
                    ps_resources := ["*"] |}) in
  (* DynamoDB table *)
  let demo_table := demo_table0 in
  let! _ := new (CTable demo_table) in
  (* Enable auto-scaling for write capacity *)
  let! _ := update_table (tbl_id demo_table) (fun t => auto_scale_write_capacity t 10 200) in
  let! _ := update_table (tbl_id demo_table) (fun t => scale_on_utilization t 70) in
  (* Lambda function *)
  let api_hanlder := {| fn_id := "ApiHandler";
                        fn_function_name := "apigw_handler";
                        fn_runtime := "python3.9";
                        fn_code_asset := "lambda/apigw-handler";
                        fn_handler := "index.handler";
                        fn_vpc := Some (vpc_id vpc);
                        fn_vpc_subnets := Some PRIVATE_ISOLATED;
                        fn_memory_size := 1024;
                        fn_timeout_seconds := 5 * 60;
                        fn_tracing := ACTIVE;
                        fn_log_retention := Some ONE_YEAR;
                        fn_reserved_concurrent_executions := Some 60;
                        fn_environment := [];
                        fn_write_grants := [] |} in
  let! _ := new (CFunction api_hanlder) in
  let! _ := update_function (fn_id api_hanlder) (fun f => ret (grant_write_data demo_table f)) in
  let! _ := update_function (fn_id api_hanlder)
              (fun f => ret (add_environment f "TABLE_NAME" (table_name demo_table))) in
  (* API Gateway access logs *)
  let api_log_group := {| lg_id := "ApiGatewayAccessLogs"; lg_retention := ONE_YEAR |} in
  let! _ := new (CLogGroup api_log_group) in
  let api := {| api_id := "Endpoint";
                api_rest_api_name := "Endpoint";
                api_handler := fn_id api_hanlder;
                api_deploy_options :=
                  {| so_stage_name := "prod";
                     so_throttling_rate_limit := 100;
                     so_throttling_burst_limit := 200;
                     so_tracing_enabled := true;
                     so_access_log_destination := lg_id api_log_group;
                     so_access_log_fields :=
                       ["caller"; "http_method"; "ip"; "protocol"; "request_time";
                        "resource_path"; "response_length"; "status"; "user"] |} |} in
  let! _ := new (CRestApi api) in
  (* WAF Web ACL *)
  let web_acl := {| acl_id := "ApiWebAcl";
                    acl_scope := "REGIONAL";
                    acl_default_allow := true;
                    acl_metric_name := "ApiWebAcl";
                    acl_rules :=
                      [{| rule_name := "RateLimitRule";
                          rule_priority := 1;
                          rule_rate_limit := 2000;
                          rule_aggregate_key_type := "IP";
                          rule_block := true;
                          rule_metric_name := "RateLimitRule" |}] |} in
  let! _ := new (CWebACL web_acl) in
  let! _ := new (CAssociation
                   {| assoc_id := "WebAclAssociation";
                      assoc_resource_arn :=
                        [VStr "arn:aws:apigateway:"; VRegion; VStr "::/restapis/";
                         rest_api_id api; VStr "/stages/"; deployment_stage_name api];
                      assoc_web_acl_arn := attr_arn web_acl |}) in
  (* CloudWatch alarms; each metric argument is evaluated before the alarm *)
  let! m_errors := lift (function_metric_method "metric_errors" api_hanlder) in
  let! _ := new (CAlarm (alarm "LambdaErrorAlarm" m_errors 1 1
                           "Alert when Lambda function errors occur")) in
  let! m_concurrency := lift (function_metric_method "metric_concurrent_executions" api_hanlder) in
  let! _ := new (CAlarm (alarm "LambdaConcurrencyAlarm" m_concurrency 48 2
                           "Alert when Lambda approaches concurrency limit")) in
  let! _ := new (CAlarm (alarm "ApiGateway5xxAlarm" (metric_server_error api) 5 2
                           "Alert on API Gateway server errors")) in
  let! _ := new (CAlarm (alarm "ApiGatewayThrottleAlarm" (metric_client_error api) 50 2
                           "Alert on API Gateway throttling events (429 responses)")) in
  let! _ := new (CAlarm (alarm "WafBlockedRequestsAlarm"
                           {| m_namespace := "AWS/WAFV2"; m_metric_name := "BlockedRequests";
                              m_dimensions := [("WebACL", VStr "ApiWebAcl"); ("Region", VRegion);
                                               ("Rule", VStr "RateLimitRule")] |} 100 1
                           "Alert when WAF blocks excessive requests")) in
  let! _ := new (CAlarm (alarm "DynamoDBThrottleAlarm" (metric_user_errors demo_table) 10 2
                           "Alert on DynamoDB throttling events")) in
  let! _ := new (CAlarm (alarm "DynamoDBWriteThrottleAlarm"
                           (table_metric demo_table "WriteThrottleEvents") 5 2
                           "Alert on DynamoDB write throttling events")) in
  iret tt.

(** Instantiating the stack: the tree [__init__] leaves and its outcome. *)
Definition run_init : Graph * Result unit := stack_init empty_graph.

(** The constructs the constructor has created when it returns or raises. *)
Definition constructed : Graph := fst run_init.

(** ** Which resource of the graph a metric belongs to

    A metric is owned by a resource when its namespace is the resource's
    service and its identifying dimension names that resource: [FunctionName]
    for a function, [ApiName] for a REST API, [TableName] for a table, and for
    AWS WAF the [WebACL] and [Rule] metric names of the web ACL's visibility
    configurations, in the stack's region. *)
Definition dim_is (m : Metric) (k : string) (v : Value) : bool :=
  match dict_get (m_dimensions m) k with
  | Some v' => value_eqb v' v
  | None => false
  end.

Definition owned_by_function (m : Metric) (f : Function) : bool :=
  String.eqb (m_namespace m) "AWS/Lambda" && dim_is m "FunctionName" (function_name f).

Definition owned_by_api (m : Metric) (a : RestApi) : bool :=
  String.eqb (m_namespace m) "AWS/ApiGateway" && dim_is m "ApiName" (VStr (api_rest_api_name a)).

Definition owned_by_table (m : Metric) (t : Table) : bool :=
  String.eqb (m_namespace m) "AWS/DynamoDB" && dim_is m "TableName" (table_name t).

Definition owned_by_web_acl (m : Metric) (w : WebACL) : bool :=
  String.eqb (m_namespace m) "AWS/WAFV2"
  && dim_is m "WebACL" (VStr (acl_metric_name w))
  && dim_is m "Region" VRegion
  && (dim_is m "Rule" (VStr "ALL")
      || existsb (fun r => dim_is m "Rule" (VStr (rule_metric_name r))) (acl_rules w)).

Definition metric_owner (g : Graph) (m : Metric) : option string :=
  match find (owned_by_function m) (g_functions g) with
  | Some f => Some (fn_id f)
  | None =>
    match find (owned_by_api m) (g_apis g) with
    | Some a => Some (api_id a)
    | None =>
      match find (owned_by_table m) (g_tables g) with
      | Some t => Some (tbl_id t)
      | None =>
        match find (owned_by_web_acl m) (g_web_acls g) with
        | Some w => Some (acl_id w)
        | None => None
        end
      end
    end
  end.

(** ** Retention of every log destination the stack configures *)
Definition log_group_retention (g : Graph) (id : string) : option RetentionDays :=
  match find (fun lg => String.eqb (lg_id lg) id) (g_log_groups g) with
  | Some lg => Some (lg_retention lg)
  | None => None
  end.

Definition configured_log_retentions (g : Graph) : list (option RetentionDays) :=
  flat_map (fun v => map (fun fl => log_group_retention g (fl_destination_log_group fl))
                         (vpc_flow_logs v)) (g_vpcs g)
  ++ map fn_log_retention (g_functions g)
  ++ map (fun a => log_group_retention g (so_access_log_destination (api_deploy_options a)))
         (g_apis g).

Definition find_alarm (g : Graph) (id : string) : option Alarm :=
  find (fun a => String.eqb (al_id a) id) (g_alarms g).

(** ** Sizing constants of the code's comments

    "Assuming API throttle of 100 req/s and avg execution time of 500ms:
     Reserved Concurrency = (100 req/s x 0.5s) + 20% buffer = 60". *)
Definition expected_execution_time : Q := 1 # 2.
Definition reservation_buffer : Q := 1 # 5.

(** ** Resources and references of a graph *)

(** Logical ids of the resources of a graph; each RestApi also creates its
    deployment stage [DeploymentStage.<stageName>]. *)
Definition stage_ids (g : Graph) : list string :=
  map (fun a => api_id a ++ "/DeploymentStage." ++ so_stage_name (api_deploy_options a))
      (g_apis g).

Definition logical_ids (g : Graph) : list string :=
  (map vpc_id (g_vpcs g) ++ map lg_id (g_log_groups g) ++ map ep_id (g_endpoints g)
  ++ map tbl_id (g_tables g) ++ map fn_id (g_functions g) ++ map api_id (g_apis g)
  ++ stage_ids g ++ map acl_id (g_web_acls g) ++ map assoc_id (g_associations g)
  ++ map al_id (g_alarms g))%list.

Definition value_refs (v : Value) : list string :=
  match v with VRef id _ => [id] | _ => [] end.

Definition dict_refs (d : list (string * Value)) : list string :=
  flat_map (fun kv => value_refs (snd kv)) d.

(** Every place where a descriptor names another resource. *)
Definition graph_references (g : Graph) : list string :=
  (flat_map (fun v => map fl_destination_log_group (vpc_flow_logs v)) (g_vpcs g)
  ++ map ep_vpc (g_endpoints g)
  ++ flat_map (fun f => match fn_vpc f with Some x => [x] | None => [] end
                        ++ fn_write_grants f ++ dict_refs (fn_environment f))
              (g_functions g)
  ++ flat_map (fun a => [api_handler a; so_access_log_destination (api_deploy_options a)])
              (g_apis g)
  ++ flat_map (fun s => flat_map value_refs (assoc_resource_arn s)
                        ++ value_refs (assoc_web_acl_arn s)) (g_associations g)
  ++ flat_map (fun a => dict_refs (m_dimensions (al_metric a))) (g_alarms g))%list.

(** A function descriptor with one preset variable, for exercising
    [add_environment] outside the stack. *)
Definition example_function : Function :=
  {| fn_id := "Fn"; fn_function_name := "fn"; fn_runtime := "python3.9";
     fn_code_asset := "lambda/fn"; fn_handler := "index.handler";
     fn_vpc := None; fn_vpc_subnets := None; fn_memory_size := 128;
     fn_timeout_seconds := 3; fn_tracing := PASS_THROUGH; fn_log_retention := None;
     fn_reserved_concurrent_executions := None;
     fn_environment := [("LOG_LEVEL", VStr "INFO")]; fn_write_grants := [] |}.

Definition init_error : string :=
  "AttributeError: 'Function' object has no attribute 'metric_concurrent_executions'".

(** * Properties *)

(** Replaces [constructed] by the tree it evaluates to. *)
Ltac eval_constructed :=
  let T := eval vm_compute in constructed in change constructed with T.

Ltac eval_constructed_in H :=
  let T := eval vm_compute in constructed in change constructed with T in H.

(** Instantiating the stack raises [AttributeError] at line 214:
    [api_hanlder.metric_concurrent_executions()] names no method of
    [lambda.Function].  Everything created before stays in the tree. *)
Lemma run_init_raises : snd run_init = inl init_error.
Proof. vm_compute. reflexivity. Qed.

(** Attaching write autoscaling leaves every field but the write scaling. *)
Lemma auto_scale_write_capacity_frame (t t' : Table) (lo hi : Z) :
  auto_scale_write_capacity t lo hi = inr t' ->
  t' = set_write_scaling t (tbl_write_scaling t').
Proof.
  unfold auto_scale_write_capacity, raise, ret.
  destruct (tbl_write_scaling t); [discriminate|].
  destruct (tbl_billing_mode t); [|discriminate].
  destruct (hi <? 0)%Z; [discriminate|].
  destruct (lo <? 0)%Z; [discriminate|].
  destruct (hi <? lo)%Z; [discriminate|].
  intros H; injection H as <-; reflexivity.
Qed.

Lemma scale_on_utilization_frame (t t' : Table) (p : Z) :
  scale_on_utilization t p = inr t' ->
  t' = set_write_scaling t (tbl_write_scaling t').
Proof.
  unfold scale_on_utilization, raise, ret.
  destruct (tbl_write_scaling t) as [[lo hi [q|]]|]; [discriminate| |discriminate].
  destruct ((p <? 10) || (90 <? p))%Z; [discriminate|].
  intros H; injection H as <-; reflexivity.
Qed.

(** C1: in the tree the constructor builds, the Table's write autoscaling
    bounds (min 10, max 200) enclose its base provisioned write capacity
    (100): min <= base <= max. *)
Theorem table_write_bounds_enclose_base :
  exists t sa, g_tables constructed = [t] /\ tbl_write_scaling t = Some sa /\
    sa_min_capacity sa = 10 /\ sa_max_capacity sa = 200 /\ tbl_write_capacity t = 100 /\
    sa_min_capacity sa <= tbl_write_capacity t <= sa_max_capacity sa.
Proof.
  eval_constructed.
  do 2 eexists; split; [reflexivity|]; split; [reflexivity|].
  cbn; lia.
Qed.

(** C2, as stated: the Function's reserved concurrency is less than the
    Gateway's throttle rate limit times the expected execution time (0.5 s).
    False for the Function and Gateway the constructor creates: 60 is not
    below 100 * 0.5 = 50. *)
Lemma reserved_concurrency_below_rate_times_time_fails :
  ~ (forall f a r, In f (g_functions constructed) -> In a (g_apis constructed) ->
       fn_reserved_concurrent_executions f = Some r ->
       (inject_Z r < inject_Z (so_throttling_rate_limit (api_deploy_options a))
                     * expected_execution_time)%Q).
Proof.
  intros H. eval_constructed_in H.
  specialize (H _ _ 60 (or_introl eq_refl) (or_introl eq_refl) eq_refl).
  vm_compute in H; discriminate.
Qed.

(** C2, amended: the reserved concurrency (60) of the Function the constructor
    creates is the Gateway's throttle rate limit times the expected execution
    time plus a 20% buffer, (100 * 0.5) * 1.2, and so exceeds rate limit
    times execution time (50). *)
Theorem reserved_concurrency_is_rate_times_time_plus_buffer :
  forall f a, In f (g_functions constructed) -> In a (g_apis constructed) ->
    exists r, fn_reserved_concurrent_executions f = Some r /\
      (inject_Z r == inject_Z (so_throttling_rate_limit (api_deploy_options a))
                     * expected_execution_time * (1 + reservation_buffer))%Q /\
      (inject_Z (so_throttling_rate_limit (api_deploy_options a))
         * expected_execution_time < inject_Z r)%Q.
Proof.
  eval_constructed.
  intros f a [<-|[]] [<-|[]].
  exists 60; split; [reflexivity|].
  split; vm_compute; reflexivity.
Qed.

Lemma reserved_concurrency_is_rate_times_time_plus_buffer_witness :
  exists f a r, In f (g_functions constructed) /\ In a (g_apis constructed) /\
    fn_reserved_concurrent_executions f = Some r.
Proof.
  destruct (g_functions constructed) as [|f fs] eqn:Ef; [vm_compute in Ef; discriminate|].
  destruct (g_apis constructed) as [|a aps] eqn:Ea; [vm_compute in Ea; discriminate|].
  destruct (reserved_concurrency_is_rate_times_time_plus_buffer f a) as [r [Hr _]].
  - rewrite Ef; left; reflexivity.
  - rewrite Ea; left; reflexivity.
  - exists f, a, r; split; [left; reflexivity|]; split; [left; reflexivity|exact Hr].
Defined.

(** C3 (the code falls short of it): instantiating the stack raises at
    line 214, so of the seven alarms only [LambdaErrorAlarm] is ever created
    (its metric is owned by the Function); and the metric line 262 hands to
    [DynamoDBThrottleAlarm], [metric_user_errors] of the Table, is the
    account-level [UserErrors] metric with no dimension, owned by no resource
    of the tree, whereas its sibling's [WriteThrottleEvents] metric is owned by
    the Table. *)
Theorem alarms_of_the_constructed_stack :
  snd run_init = inl init_error /\
  map al_id (g_alarms constructed) = ["LambdaErrorAlarm"] /\
  (forall a, In a (g_alarms constructed) ->
     metric_owner constructed (al_metric a) = Some "ApiHandler") /\
  (forall t, In t (g_tables constructed) ->
     m_dimensions (metric_user_errors t) = [] /\
     metric_owner constructed (metric_user_errors t) = None /\
     metric_owner constructed (table_metric t "WriteThrottleEvents") = Some (tbl_id t)).
Proof.
  split; [exact run_init_raises|].
  eval_constructed.
  split; [reflexivity|]; split.
  - intros a [<-|[]]; reflexivity.
  - intros t [<-|[]]; repeat split; reflexivity.
Qed.

(** C4: the Firewall association's [resource_arn] is the join
    [arn:aws:apigateway:<region>::/restapis/<rest_api_id>/stages/<stage_name>]
    of the Gateway's own [rest_api_id] and deployment-stage name, and its
    [web_acl_arn] is the ARN of the Web ACL of the same stack. *)
Theorem web_acl_association_targets_gateway_stage :
  exists api w assoc,
    g_apis constructed = [api] /\ g_web_acls constructed = [w] /\
    g_associations constructed = [assoc] /\
    assoc_resource_arn assoc =
      [VStr "arn:aws:apigateway:"; VRegion; VStr "::/restapis/"; rest_api_id api;
       VStr "/stages/"; deployment_stage_name api] /\
    assoc_web_acl_arn assoc = attr_arn w.
Proof.
  eval_constructed.
  do 3 eexists; repeat split; reflexivity.
Qed.

(** C5: the DynamoDB gateway endpoint's policy is a single statement for any
    principal, with exactly the fixed action allow-list and resource ["*"]. *)
Theorem dynamodb_endpoint_policy_allow_list :
  exists ep st,
    g_endpoints constructed = [ep] /\ ep_service ep = "dynamodb" /\
    ep_policy_statements ep = [st] /\
    ps_principals st = [AnyPrincipal] /\
    ps_actions st = ["dynamodb:DescribeStream"; "dynamodb:DescribeTable";
                     "dynamodb:Get*"; "dynamodb:Query"; "dynamodb:Scan";
                     "dynamodb:CreateTable"; "dynamodb:Delete*";
                     "dynamodb:Update*"; "dynamodb:PutItem"] /\
    ps_resources st = ["*"].
Proof.
  eval_constructed.
  do 2 eexists; repeat split; reflexivity.
Qed.

(** C6: every configured subnet of every VPC is PRIVATE_ISOLATED (so none has
    a route to an internet gateway), and every Function is placed in a VPC of
    the stack with a subnet selection of type PRIVATE_ISOLATED. *)
Theorem subnets_isolated :
  (forall v, In v (g_vpcs constructed) ->
     vpc_subnet_configuration v <> [] /\
     forall sc, In sc (vpc_subnet_configuration v) ->
       sc_subnet_type sc = PRIVATE_ISOLATED
       /\ routes_to_internet_gateway (sc_subnet_type sc) = false) /\
  (forall f, In f (g_functions constructed) ->
     fn_vpc_subnets f = Some PRIVATE_ISOLATED /\
     exists v, In v (g_vpcs constructed) /\ fn_vpc f = Some (vpc_id v)).
Proof.
  eval_constructed.
  split.
  - intros v [<-|[]]; split; [discriminate|].
    intros sc [<-|[]]; split; reflexivity.
  - intros f [<-|[]]; split; [reflexivity|].
    eexists; split; [left; reflexivity|reflexivity].
Qed.

(** C7: the Function's environment holds exactly one variable, [TABLE_NAME],
    bound to the Table's generated name. *)
Theorem function_env_table_name :
  exists f t, g_functions constructed = [f] /\ g_tables constructed = [t] /\
    fn_environment f = [("TABLE_NAME", table_name t)].
Proof.
  eval_constructed.
  do 2 eexists; repeat split; reflexivity.
Qed.

(** C8 (the code falls short of it): the concurrency alarm is never created.
    Its metric argument [api_hanlder.metric_concurrent_executions()] raises
    [AttributeError] for every Function, so instantiating the stack raises
    at line 214 and the tree has no [LambdaConcurrencyAlarm], although the
    intended threshold 48 is 80% of the reserved concurrency 60. *)
Theorem concurrency_alarm_never_created :
  (forall f, function_metric_method "metric_concurrent_executions" f = inl init_error) /\
  snd run_init = inl init_error /\
  find_alarm constructed "LambdaConcurrencyAlarm" = None /\
  (exists f, g_functions constructed = [f] /\
     fn_reserved_concurrent_executions f = Some 60) /\
  48 * 100 = 60 * 80.
Proof.
  split; [intros f; reflexivity|].
  split; [exact run_init_raises|].
  eval_constructed.
  split; [reflexivity|]; split; [|reflexivity].
  eexists; split; reflexivity.
Qed.

(** C9: attaching write autoscaling (and its utilization target) changes only
    the write scaling of a table; the Table the constructor builds is its
    descriptor [demo_table0] with write scaling set, no read scaling, and
    read capacity 5. *)
Theorem autoscaling_changes_only_write_scaling :
  (forall t t' lo hi, auto_scale_write_capacity t lo hi = inr t' ->
     t' = set_write_scaling t (tbl_write_scaling t')) /\
  (forall t t' p, scale_on_utilization t p = inr t' ->
     t' = set_write_scaling t (tbl_write_scaling t')) /\
  exists t, g_tables constructed = [t] /\
    t = set_write_scaling demo_table0 (tbl_write_scaling t) /\
    tbl_write_scaling t <> None /\
    tbl_read_scaling t = None /\ tbl_read_capacity t = 5.
Proof.
  split; [exact auto_scale_write_capacity_frame|].
  split; [exact scale_on_utilization_frame|].
  eval_constructed.
  eexists; split; [reflexivity|].
  split; [reflexivity|]; split; [discriminate|]; split; reflexivity.
Qed.

(** C10: every log destination the stack configures (the flow log's log
    group, the Function's log retention, the Gateway's access-log group) has
    a retention of exactly one year. *)
Theorem log_destinations_retain_one_year :
  configured_log_retentions constructed = [Some ONE_YEAR; Some ONE_YEAR; Some ONE_YEAR] /\
  Forall (eq (Some ONE_YEAR)) (configured_log_retentions constructed).
Proof.
  eval_constructed.
  split; [reflexivity|].
  repeat constructor.
Qed.

Lemma forallb_in_Forall (refs ids : list string) :
  forallb (fun r => existsb (String.eqb r) ids) refs = true ->
  Forall (fun r => In r ids) refs.
Proof.
  intros H. apply Forall_forall. intros r Hr.
  rewrite forallb_forall in H. specialize (H r Hr).
  apply existsb_exists in H as [x [Hx Heq]].
  apply String.eqb_eq in Heq; subst x; exact Hx.
Qed.


(** X1: the tree has no dangling reference: every resource named by another
    construct (log destinations, VPC placements, write grants, environment
    values, the proxied handler, the association's ARNs, the alarm
    dimensions) is a construct of the tree. *)
Theorem graph_references_resolve :
  graph_references constructed <> [] /\
  Forall (fun r => In r (logical_ids constructed)) (graph_references constructed).
Proof.
  split; [vm_compute; discriminate|].
  apply forallb_in_Forall. vm_compute. reflexivity.
Qed.

(** X3: the Function is granted write access to exactly the Table whose name
    its [TABLE_NAME] variable carries. *)
Theorem function_writes_the_table_it_names :
  exists f t, g_functions constructed = [f] /\ g_tables constructed = [t] /\
    fn_write_grants f = [tbl_id t] /\
    dict_get (fn_environment f) "TABLE_NAME" = Some (table_name t).
Proof.
  eval_constructed.
  do 2 eexists; repeat split; reflexivity.
Qed.

(** X4: the Gateway proxies to the stack's Function and logs to a log group of
    the stack; tracing is on at both ends, and the burst limit is at least the
    steady rate limit. *)
Theorem gateway_wiring :
  exists a f lg, g_apis constructed = [a] /\ In f (g_functions constructed) /\
    In lg (g_log_groups constructed) /\
    api_handler a = fn_id f /\
    so_access_log_destination (api_deploy_options a) = lg_id lg /\
    so_tracing_enabled (api_deploy_options a) = true /\ fn_tracing f = ACTIVE /\
    so_throttling_rate_limit (api_deploy_options a)
      <= so_throttling_burst_limit (api_deploy_options a).
Proof.
  eval_constructed.
  do 3 eexists; split; [reflexivity|].
  split; [left; reflexivity|]; split; [right; left; reflexivity|].
  repeat split; try reflexivity.
  cbn; lia.
Qed.

(** X5: the VPC's flow log records ALL traffic into a one-year log group of
    the stack, and the DynamoDB endpoint sits in the same VPC the Function is
    placed in. *)
Theorem network_wiring :
  exists v fl lg ep f,
    g_vpcs constructed = [v] /\ vpc_flow_logs v = [fl] /\
    In lg (g_log_groups constructed) /\
    fl_traffic_type fl = ALL /\ fl_destination_log_group fl = lg_id lg /\
    lg_retention lg = ONE_YEAR /\
    g_endpoints constructed = [ep] /\ g_functions constructed = [f] /\
    ep_vpc ep = vpc_id v /\ fn_vpc f = Some (vpc_id v).
Proof.
  eval_constructed.
  do 5 eexists; split; [reflexivity|]; split; [reflexivity|].
  split; [left; reflexivity|].
  repeat split; reflexivity.
Qed.

(** ** [add_environment]: a dictionary update of the environment *)


Lemma dict_get_set_other (d : list (string * Value)) (k k' : string) (v : Value) :
  k' <> k -> dict_get (dict_set d k v) k' = dict_get d k'.
Proof.
  intros Hne.
  induction d as [|[k0 v0] r IH]; cbn.
  - apply String.eqb_neq in Hne; rewrite Hne; reflexivity.
  - destruct (String.eqb k k0) eqn:E; cbn.
    + apply String.eqb_eq in E; subst k0.
      apply String.eqb_neq in Hne; rewrite Hne; reflexivity.
    + destruct (String.eqb k' k0); [reflexivity|exact IH].
Qed.



(** X7: [add_environment f k v] leaves every other variable as it was. *)
Theorem add_environment_get_other (f : Function) (k k' : string) (v : Value) :
  k' <> k ->
  dict_get (fn_environment (add_environment f k v)) k' = dict_get (fn_environment f) k'.
Proof.
  intros Hne. unfold add_environment.
  destruct (String.eqb k "__proto__"); [reflexivity|].
  apply dict_get_set_other; exact Hne.
Qed.

Lemma add_environment_get_other_witness :
  "LOG_LEVEL" <> "TABLE_NAME" /\
  dict_get (fn_environment (add_environment example_function "TABLE_NAME" (VStr "t")))
    "LOG_LEVEL" = dict_get (fn_environment example_function) "LOG_LEVEL".
Proof.
  split; [discriminate|].
  apply add_environment_get_other; discriminate.
Defined.

(** ** Write-capacity autoscaling *)

(** X9: [auto_scale_write_capacity] succeeds only on a PROVISIONED table
    without write autoscaling and with 0 <= min <= max, and then records
    exactly those bounds, with no utilization target yet. *)
Theorem auto_scale_write_capacity_ok (t t' : Table) (lo hi : Z) :
  auto_scale_write_capacity t lo hi = inr t' ->
  tbl_write_scaling t = None /\ tbl_billing_mode t = PROVISIONED /\
  0 <= lo <= hi /\
  tbl_write_scaling t' = Some {| sa_min_capacity := lo; sa_max_capacity := hi;
                                 sa_target_utilization_percent := None |}.
Proof.
  unfold auto_scale_write_capacity, raise, ret.
  destruct (tbl_write_scaling t); [discriminate|].
  destruct (tbl_billing_mode t); [|discriminate].
  destruct (hi <? 0)%Z eqn:E1; [discriminate|].
  destruct (lo <? 0)%Z eqn:E2; [discriminate|].
  destruct (hi <? lo)%Z eqn:E3; [discriminate|].
  intros H; injection H as <-.
  apply Z.ltb_ge in E2, E3.
  repeat split; try reflexivity; lia.
Qed.

Lemma auto_scale_write_capacity_ok_witness :
  exists t', auto_scale_write_capacity demo_table0 10 200 = inr t' /\
    0 <= 10 <= 200.
Proof.
  destruct (auto_scale_write_capacity demo_table0 10 200) as [e|t'] eqn:E;
    [vm_compute in E; discriminate|].
  exists t'; split; [reflexivity|].
  exact (proj1 (proj2 (proj2 (auto_scale_write_capacity_ok _ _ _ _ E)))).
Defined.

(** X10: write autoscaling can be attached only once: after a successful
    attachment, every further attachment raises. *)
Theorem auto_scale_write_capacity_once (t t' : Table) (lo hi lo' hi' : Z) :
  auto_scale_write_capacity t lo hi = inr t' ->
  exists e, auto_scale_write_capacity t' lo' hi' = inl e.
Proof.
  intros H.
  destruct (auto_scale_write_capacity_ok _ _ _ _ H) as (_ & _ & _ & Hw).
  unfold auto_scale_write_capacity at 1; rewrite Hw.
  eexists; reflexivity.
Qed.

Lemma auto_scale_write_capacity_once_witness :
  exists t' e, auto_scale_write_capacity demo_table0 10 200 = inr t' /\
    auto_scale_write_capacity t' 10 200 = inl e.
Proof.
  destruct (auto_scale_write_capacity demo_table0 10 200) as [e|t'] eqn:E;
    [vm_compute in E; discriminate|].
  destruct (auto_scale_write_capacity_once _ _ _ _ 10 200 E) as [e He].
  exists t', e; split; [reflexivity|exact He].
Defined.

(** X11: [scale_on_utilization] succeeds only when write autoscaling is
    attached and the target lies in [10, 90]; it then keeps the bounds and
    records the target. *)
Theorem scale_on_utilization_ok (t t' : Table) (p : Z) :
  scale_on_utilization t p = inr t' ->
  10 <= p <= 90 /\
  exists sa, tbl_write_scaling t = Some sa /\
    tbl_write_scaling t' = Some {| sa_min_capacity := sa_min_capacity sa;
                                   sa_max_capacity := sa_max_capacity sa;
                                   sa_target_utilization_percent := Some p |}.
Proof.
  unfold scale_on_utilization, raise, ret.
  destruct (tbl_write_scaling t) as [[lo hi [q|]]|]; [discriminate| |discriminate].
  destruct ((p <? 10) || (90 <? p))%Z eqn:E; [discriminate|].
  intros H; injection H as <-.
  apply orb_false_iff in E as [E1 E2].
  apply Z.ltb_ge in E1, E2.
  split; [lia|].
  eexists; split; reflexivity.
Qed.

Lemma scale_on_utilization_ok_witness :
  exists t', scale_on_utilization
               (set_write_scaling demo_table0
                  (Some {| sa_min_capacity := 10; sa_max_capacity := 200;
                           sa_target_utilization_percent := None |})) 70 = inr t' /\
    10 <= 70 <= 90.
Proof.
  destruct (scale_on_utilization
              (set_write_scaling demo_table0
                 (Some {| sa_min_capacity := 10; sa_max_capacity := 200;
                          sa_target_utilization_percent := None |})) 70) as [e|t'] eqn:E;
    [vm_compute in E; discriminate|].
  exists t'; split; [reflexivity|].
  exact (proj1 (scale_on_utilization_ok _ _ _ E)).
Defined.
